(** * Trading simulation of the tti library (tti/utils/trading_simulation.py)

    A shallow embedding of the class [TradingSimulation]: the engine that
    turns one trading signal per day into portfolio rows and simulation rows,
    and the statistics computed when the simulation is closed.

    Conventions of the embedding.
    - The two pandas tables ([_portfolio], [_simulation_data]) are lists of
      rows, one per trading day.  Both are created with [data=None], so a row
      is all-NaN until it is written: an unwritten row is [None].
    - [DataFrame.iat] addresses one cell and takes a row and a column.  The
      class gives it the row only.  An assignment [frame.iat[i] = row] then
      raises ValueError before any cell is written, and a read [frame.iat[i]]
      raises TypeError, whatever [i] is.  [Series.iat], which the class uses
      on a column of the simulation data, takes the single position it is
      given, and raises IndexError past the end.
    - Numbers in cells are Python floats and ints.  As data a number is NaN,
      an infinity or an exact rational, and comparisons are the exact ones
      (false as soon as one side is NaN).  The operations that round, [+],
      [-], [*], [/] and [int()], are not fixed: they are the fields of the
      class [Arithmetic], and every property holds for every arithmetic.
    - A method is a function from the engine to an [outcome]: either it
      returns, or it raises; in both cases the engine carries the writes done
      up to that point, as a Python object does. *)

From Stdlib Require Import ZArith QArith String List Lia.
From stdpp Require Import base list.

Local Open Scope Z_scope.
Local Open Scope string_scope.

(** ** Python values *)

(** Numbers stored in table cells and passed to the constructor. *)
Inductive pynum : Type :=
  | NaN
  | PInf
  | NInf
  | Fin (q : Q).

(** A cell that holds a number or a text (the total value is first written as
    the text N/A). *)
Inductive cell : Type :=
  | Num (x : pynum)
  | Str (s : string).

(** Values a caller may pass for the numeric constructor arguments. *)
Inductive pyval : Type :=
  | PyNone
  | PyBool (b : bool)
  | PyInt (z : Z)
  | PyFloat (x : pynum)
  | PyStr (s : string).

(** A trading signal as the indicators produce it: a pair (name, code), or
    anything else a caller hands over. *)
Inductive signal_value : Type :=
  | SigPair (name : string) (code : Z)
  | SigNone
  | SigStr (s : string)
  | SigInt (z : Z).

Inductive exn : Type :=
  | ValueError
  | TypeError
  | IndexError
  | KeyError
  | ZeroDivisionError
  | OverflowError
  | WrongTypeForInputParameter
  | WrongValueForInputParameter
  | NotValidInputDataForSimulation.

(** ** Numbers: comparisons and arithmetic *)

Definition Qltb (a b : Q) : bool := negb (Qle_bool b a).

(** [x < y]: false as soon as one side is NaN. *)
Definition pltb (x y : pynum) : bool :=
  match x, y with
  | NaN, _ | _, NaN => false
  | PInf, _ => false
  | NInf, NInf => false
  | NInf, _ => true
  | Fin _, PInf => true
  | Fin _, NInf => false
  | Fin a, Fin b => Qltb a b
  end.

(** [x <= 0]: false for NaN. *)
Definition le_zero (x : pynum) : bool :=
  match x with
  | NaN | PInf => false
  | NInf => true
  | Fin q => Qle_bool q 0
  end.

(** An int as a number. *)
Definition of_int (z : Z) : pynum := Fin (inject_Z z).

(** The operations of Python that round or may raise.  [pdiv] is [x / y]
    (it may raise ZeroDivisionError) and [py_int] is [int(x)] (it raises on
    NaN and on the infinities). *)
Class Arithmetic : Type := {
  padd : pynum -> pynum -> pynum;
  psub : pynum -> pynum -> pynum;
  pmul : pynum -> pynum -> pynum;
  pdiv : pynum -> pynum -> exn + pynum;
  py_int : pynum -> exn + Z
}.

(** ** The tables *)

(** A row of [_portfolio]: columns position, items, unit_price, status. *)
Record PortfolioRow : Type := mkPortfolioRow {
  position : string;
  items : Z;
  unit_price : Q;
  status : string
}.

(** A row of [_simulation_data]: columns signal, trading_action,
    stocks_in_transaction, balance, stock_value, total_value. *)
Record SimulationRow : Type := mkSimulationRow {
  signal : string;
  trading_action : string;
  stocks_in_transaction : Z;
  balance : pynum;
  stock_value : Q;
  total_value : cell
}.

(** The dictionary [_statistics]. *)
Record Statistics : Type := mkStatistics {
  number_of_trading_days : nat;
  number_of_buy_signals : nat;
  number_of_ignored_buy_signals : nat;
  number_of_sell_signals : nat;
  number_of_ignored_sell_signals : nat;
  stat_balance : pynum;
  total_stocks_in_long : pynum;
  total_stocks_in_short : pynum;
  stat_stock_value : pynum;
  stat_total_value : cell
}.

(** The engine.  The two caps are stored by their numeric value: a Python
    bool is an int ([True == 1]). *)
Record TradingSimulation : Type := mkTradingSimulation {
  _input_data_index : list Z;
  _close_values : list Q;
  _max_items_per_transaction : Z;
  _max_investment : option pynum;
  _portfolio : list (option PortfolioRow);
  _simulation_data : list (option SimulationRow);
  _statistics : Statistics
}.

Definition with_portfolio (pf : list (option PortfolioRow))
    (s : TradingSimulation) : TradingSimulation :=
  mkTradingSimulation (_input_data_index s) (_close_values s)
    (_max_items_per_transaction s) (_max_investment s)
    pf (_simulation_data s) (_statistics s).

Definition with_simulation_data (sd : list (option SimulationRow))
    (s : TradingSimulation) : TradingSimulation :=
  mkTradingSimulation (_input_data_index s) (_close_values s)
    (_max_items_per_transaction s) (_max_investment s)
    (_portfolio s) sd (_statistics s).

Definition with_statistics (st : Statistics)
    (s : TradingSimulation) : TradingSimulation :=
  mkTradingSimulation (_input_data_index s) (_close_values s)
    (_max_items_per_transaction s) (_max_investment s)
    (_portfolio s) (_simulation_data s) st.

(** ** Methods as state transformers that may raise *)

Inductive outcome (A : Type) : Type :=
  | Returns (a : A) (s : TradingSimulation)
  | Raises (e : exn) (s : TradingSimulation).

Arguments Returns {A} a s.
Arguments Raises {A} e s.

Definition M (A : Type) : Type := TradingSimulation -> outcome A.

Definition ret {A} (a : A) : M A := fun s => Returns a s.

Definition raise {A} (e : exn) : M A := fun s => Raises e s.

Definition bind {A B} (m : M A) (k : A -> M B) : M B :=
  fun s =>
    match m s with
    | Returns a s' => k a s'
    | Raises e s' => Raises e s'
    end.

Definition gets {A} (f : TradingSimulation -> A) : M A :=
  fun s => Returns (f s) s.

Definition modify (f : TradingSimulation -> TradingSimulation) : M unit :=
  fun s => Returns tt (f s).

(** The result of an operation that may raise, inside a method. *)
Definition lift {A} (r : exn + A) : M A :=
  match r with
  | inl e => raise e
  | inr a => ret a
  end.

Declare Scope py_scope.
Delimit Scope py_scope with py.
Notation "x <- m ;; k" := (bind m (fun x => k))
  (at level 100, m at next level, right associativity) : py_scope.
Notation "m ;;; k" := (bind m (fun _ => k))
  (at level 100, right associativity) : py_scope.
Local Open Scope py_scope.

(** The engine an outcome ends in, returned or raised. *)
Definition final_state {A} (o : outcome A) : TradingSimulation :=
  match o with
  | Returns _ s => s
  | Raises _ s => s
  end.

Definition returned {A} (o : outcome A) : bool :=
  match o with
  | Returns _ _ => true
  | Raises _ _ => false
  end.

(** ** Table primitives *)

(** [self._close_values.iat[i]]: [DataFrame.iat] with the row alone.  The
    column is missing and the read raises TypeError, in range or not. *)
Definition close_at (i : nat) : M Q :=
  raise TypeError.

(** [self._simulation_data['balance'].iat[i]], on the column ([Series.iat]):
    NaN while row [i] is unwritten. *)
Definition balance_at (i : nat) : M pynum :=
  fun s =>
    match _simulation_data s !! i with
    | Some (Some r) => Returns (balance r) s
    | Some None => Returns NaN s
    | None => Raises IndexError s
    end.

(** [self._portfolio.iat[i] = row]: [DataFrame.iat] with the row alone.  The
    assignment raises ValueError and no cell is written, in range or not. *)
Definition set_portfolio_row (i : nat) (row : PortfolioRow) : M unit :=
  raise ValueError.

(** [self._simulation_data.iat[i] = row]: as for the portfolio. *)
Definition set_simulation_row (i : nat) (row : SimulationRow) : M unit :=
  raise ValueError.

Definition update_total_value (v : cell) (r : SimulationRow) : SimulationRow :=
  mkSimulationRow (signal r) (trading_action r) (stocks_in_transaction r)
    (balance r) (stock_value r) v.

(** [self._simulation_data['total_value'].iat[i] = v], on the column: one
    cell of row [i].  On an unwritten row the other cells would stay NaN,
    which a row of the embedding cannot show, and the row is left
    unwritten. *)
Definition set_total_value (i : nat) (v : cell) : M unit :=
  fun s =>
    match _simulation_data s !! i with
    | Some (Some r) =>
        Returns tt
          (with_simulation_data
             (<[i := Some (update_total_value v r)]> (_simulation_data s)) s)
    | Some None => Returns tt s
    | None => Raises IndexError s
    end.

(** [frame[column] == text]: false on unwritten (NaN) rows. *)
Definition col_eq {R} (column : R -> string) (text : string)
    (frame : list (option R)) : list bool :=
  map (fun r => match r with
                | Some r => String.eqb (column r) text
                | None => false
                end) frame.

(** [self._portfolio['unit_price'] < price] and [... > price] *)
Definition unit_price_lt (price : Q) (frame : list (option PortfolioRow))
    : list bool :=
  map (fun r => match r with
                | Some r => Qltb (unit_price r) price
                | None => false
                end) frame.

Definition unit_price_gt (price : Q) (frame : list (option PortfolioRow))
    : list bool :=
  map (fun r => match r with
                | Some r => Qltb price (unit_price r)
                | None => false
                end) frame.

(** [frame[mask]]: the rows where the mask is true, as a new frame. *)
Fixpoint select {R} (frame : list R) (mask : list bool) : list R :=
  match frame, mask with
  | r :: frame', b :: mask' =>
      if b then r :: select frame' mask' else select frame' mask'
  | _, _ => []
  end.

(** [sum(frame['items'])] and [frame['items'].sum()]: the items are ints,
    whose sum is exact; an unwritten row brings a NaN. *)
Definition sum_items (frame : list (option PortfolioRow)) : pynum :=
  fold_left
    (fun acc r => match acc, r with
                  | Fin a, Some r => Fin (a + inject_Z (items r))
                  | _, _ => NaN
                  end)
    frame (of_int 0).

(** [bool(series)]: pandas gives a Series no truth value; its [__bool__]
    raises ValueError whatever the Series holds, the empty one included. *)
Definition series_bool (series : list bool) : M bool :=
  raise ValueError.

(** Python's [x and y] on two masks: [y] is evaluated only if [bool(x)] is
    true, and [x] is the result otherwise. *)
Definition series_and (x : list bool) (y : M (list bool)) : M (list bool) :=
  b <- series_bool x ;;
  if b then y else ret x.

Definition set_status (text : string) (r : option PortfolioRow)
    : option PortfolioRow :=
  match r with
  | Some r => Some (mkPortfolioRow (position r) (items r) (unit_price r) text)
  | None => None
  end.

(** [self._portfolio[mask]['status'] = text]: the selection
    [self._portfolio[mask]] is a new frame, the column is assigned on that
    temporary, and [self._portfolio] keeps its rows. *)
Definition set_status_of_selection (mask : list bool) (text : string)
    : M unit :=
  pf <- gets _portfolio ;;
  let _selection := map (set_status text) (select pf mask) in
  ret tt.

(** ** _closeOpenPositions *)

Definition _closeOpenPositions `{Arithmetic} (price : Q)
    (force_all write : bool) : M pynum :=
  if force_all then
    pf <- gets _portfolio ;;
    m <- series_and (col_eq status "open" pf)
           (pf' <- gets _portfolio ;; ret (col_eq position "long" pf')) ;;
    let total_long_items := sum_items (select pf m) in
    pf <- gets _portfolio ;;
    m <- series_and (col_eq status "open" pf)
           (pf' <- gets _portfolio ;; ret (col_eq position "short" pf')) ;;
    let total_short_items := sum_items (select pf m) in
    let value := pmul (psub total_long_items total_short_items) (Fin price) in
    (if write then
       pf <- gets _portfolio ;;
       set_status_of_selection (col_eq status "open" pf) "close"
     else ret tt) ;;;
    ret value
  else
    pf <- gets _portfolio ;;
    m <- series_and (col_eq status "open" pf)
           (pf' <- gets _portfolio ;; ret (col_eq position "long" pf')) ;;
    m <- series_and m
           (pf' <- gets _portfolio ;; ret (unit_price_lt price pf')) ;;
    let total_long_items := sum_items (select pf m) in
    pf <- gets _portfolio ;;
    m <- series_and (col_eq status "open" pf)
           (pf' <- gets _portfolio ;; ret (col_eq position "short" pf')) ;;
    m <- series_and m
           (pf' <- gets _portfolio ;; ret (unit_price_gt price pf')) ;;
    let total_short_items := sum_items (select pf m) in
    let value := pmul (psub total_long_items total_short_items) (Fin price) in
    (if write then
       pf <- gets _portfolio ;;
       m <- series_and (col_eq status "open" pf)
              (pf' <- gets _portfolio ;; ret (col_eq position "long" pf')) ;;
       m <- series_and m
              (pf' <- gets _portfolio ;; ret (unit_price_lt price pf')) ;;
       set_status_of_selection m "close" ;;;
       pf <- gets _portfolio ;;
       m <- series_and (col_eq status "open" pf)
              (pf' <- gets _portfolio ;; ret (col_eq position "short" pf')) ;;
       m <- series_and m
              (pf' <- gets _portfolio ;; ret (unit_price_gt price pf')) ;;
       set_status_of_selection m "close"
     else ret tt) ;;;
    ret value.

(** ** Processing one signal *)

(** The three methods below are reached from [runSimulationRound] only, on a
    day [i_index >= 1]: [i_index - 1] is the day before.  The buy and the
    sell method share their test, their ignored branch and their quantity;
    each is written once here ([not_enough_balance], [record_ignored],
    [transaction_quantity]) and used by both. *)

(** The row ['none', 0, 0.0, 'none']. *)
Definition no_position : PortfolioRow := mkPortfolioRow "none" 0 0%Q "none".

(** [int(x / price)] *)
Definition int_of_quotient `{Arithmetic} (x : pynum) (price : Q) : M Z :=
  q <- lift (pdiv x (Fin price)) ;;
  lift (py_int q).

(** The test that guards both [_processBuySignal] and [_processSellSignal]:
    [self._max_investment is not None and
     balance.iat[i_index] - close.iat[i_index] + self._max_investment < 0].
    The balance read is the one of row [i_index] itself. *)
Definition not_enough_balance `{Arithmetic} (i_index : nat) : M bool :=
  max_investment <- gets _max_investment ;;
  match max_investment with
  | None => ret false
  | Some cap =>
      b <- balance_at i_index ;;
      p <- close_at i_index ;;
      ret (pltb (padd (psub b (Fin p)) cap) (Fin 0))
  end.

(** The branch taken when the test above holds: the signal is recorded with
    the action none. *)
Definition record_ignored `{Arithmetic} (i_index : nat) (name : string)
    : M unit :=
  set_portfolio_row i_index no_position ;;;
  p <- close_at i_index ;;
  value <- _closeOpenPositions p true false ;;
  b <- balance_at (i_index - 1) ;;
  p <- close_at i_index ;;
  b' <- balance_at (i_index - 1) ;;
  set_simulation_row i_index
    (mkSimulationRow name "none" 0 b p (Num (padd b' value))).

(** The number of stocks of a new position. *)
Definition transaction_quantity `{Arithmetic} (i_index : nat) : M Z :=
  max_investment <- gets _max_investment ;;
  max_items <- gets _max_items_per_transaction ;;
  match max_investment with
  | Some cap =>
      b <- balance_at (i_index - 1) ;;
      p <- close_at i_index ;;
      n <- int_of_quotient (psub b cap) p ;;
      ret (Z.min max_items n)
  | None => ret max_items
  end.

Definition _processHoldSignal `{Arithmetic} (i_index : nat) : M unit :=
  set_portfolio_row i_index no_position ;;;
  p <- close_at i_index ;;
  value <- _closeOpenPositions p true false ;;
  b <- balance_at (i_index - 1) ;;
  p <- close_at i_index ;;
  b' <- balance_at (i_index - 1) ;;
  set_simulation_row i_index
    (mkSimulationRow "hold" "none" 0 b p (Num (padd b' value))).

Definition _processBuySignal `{Arithmetic} (i_index : nat) : M unit :=
  ignored <- not_enough_balance i_index ;;
  if ignored then record_ignored i_index "buy"
  else
    quantity <- transaction_quantity i_index ;;
    p <- close_at i_index ;;
    set_portfolio_row i_index (mkPortfolioRow "long" quantity p "open") ;;;
    b <- balance_at (i_index - 1) ;;
    p <- close_at i_index ;;
    p' <- close_at i_index ;;
    set_simulation_row i_index
      (mkSimulationRow "buy" "open_long" quantity
         (psub b (pmul (of_int quantity) (Fin p))) p' (Str "N/A")) ;;;
    p <- close_at i_index ;;
    value <- _closeOpenPositions p true false ;;
    b <- balance_at i_index ;;
    set_total_value i_index (Num (padd b value)).

Definition _processSellSignal `{Arithmetic} (i_index : nat) : M unit :=
  ignored <- not_enough_balance i_index ;;
  if ignored then record_ignored i_index "sell"
  else
    quantity <- transaction_quantity i_index ;;
    p <- close_at i_index ;;
    set_portfolio_row i_index (mkPortfolioRow "short" quantity p "open") ;;;
    b <- balance_at (i_index - 1) ;;
    p <- close_at i_index ;;
    p' <- close_at i_index ;;
    set_simulation_row i_index
      (mkSimulationRow "sell" "open_short" quantity
         (padd b (pmul (of_int quantity) (Fin p))) p' (Str "N/A")) ;;;
    p <- close_at i_index ;;
    value <- _closeOpenPositions p true false ;;
    b <- balance_at i_index ;;
    set_total_value i_index (Num (padd b value)).

(** ** runSimulationRound *)

(** Modelled from the spec: the table [TRADE_SIGNALS] of tti.utils.constants,
    which is not among the sources.  Its three entries are the signals the
    docstring of [runSimulationRound] and the tests of the indicators list:
    ('hold', 0), ('buy', -1), ('sell', 1). *)
Definition TRADE_SIGNALS (name : string) : signal_value :=
  if String.eqb name "buy" then SigPair "buy" (-1)
  else if String.eqb name "sell" then SigPair "sell" 1
  else SigPair "hold" 0.

(** Python's [==] between two signals. *)
Definition signal_eqb (a b : signal_value) : bool :=
  match a, b with
  | SigPair n c, SigPair n' c' => String.eqb n n' && Z.eqb c c'
  | SigNone, SigNone => true
  | SigStr s, SigStr s' => String.eqb s s'
  | SigInt z, SigInt z' => Z.eqb z z'
  | _, _ => false
  end.

Definition runSimulationRound `{Arithmetic} (i_index : nat)
    (sig : signal_value) : M unit :=
  if (i_index =? 0)%nat then
    set_simulation_row 0
      (mkSimulationRow "hold" "none" 0 (Fin 0) 0%Q (Num (Fin 0))) ;;;
    set_portfolio_row 0 no_position
  else if signal_eqb sig (TRADE_SIGNALS "buy") then _processBuySignal i_index
  else if signal_eqb sig (TRADE_SIGNALS "sell") then _processSellSignal i_index
  else _processHoldSignal i_index.

(** ** Statistics and closeSimulation *)

(** [len(frame[mask].index)] *)
Definition count_selected {R} (frame : list R) (mask : list bool) : nat :=
  length (select frame mask).

(** [self._simulation_data[column].iat[-1]]: the cell of the last row. *)
Definition last_cell {A} (column : SimulationRow -> A) (unwritten : A)
    : M A :=
  fun s =>
    match last (_simulation_data s) with
    | Some (Some r) => Returns (column r) s
    | Some None => Returns unwritten s
    | None => Raises IndexError s
    end.

(** [self._portfolio['close'] == 'open']: the portfolio has the columns
    position, items, unit_price and status, and none named close. *)
Definition portfolio_close_is_open : M (list bool) :=
  raise KeyError.

Definition _calculateSimulationStatistics : M unit :=
  sd <- gets _simulation_data ;;
  let n_days := length sd in
  let n_buy := count_selected sd (col_eq signal "buy" sd) in
  m <- series_and (col_eq signal "buy" sd)
         (ret (col_eq trading_action "none" sd)) ;;
  let n_ignored_buy := count_selected sd m in
  let n_sell := count_selected sd (col_eq signal "sell" sd) in
  m <- series_and (col_eq signal "sell" sd)
         (ret (col_eq trading_action "none" sd)) ;;
  let n_ignored_sell := count_selected sd m in
  bal <- last_cell balance NaN ;;
  pf <- gets _portfolio ;;
  m <- series_and (col_eq position "long" pf) portfolio_close_is_open ;;
  let in_long := sum_items (select pf m) in
  m <- series_and (col_eq position "short" pf) portfolio_close_is_open ;;
  let in_short := sum_items (select pf m) in
  sv <- last_cell (fun r => Fin (stock_value r)) NaN ;;
  tv <- last_cell total_value (Num NaN) ;;
  modify (with_statistics
            (mkStatistics n_days n_buy n_ignored_buy n_sell n_ignored_sell
               bal in_long in_short sv tv)).

Definition closeSimulation : M (list (option SimulationRow) * Statistics) :=
  _calculateSimulationStatistics ;;;
  sd <- gets _simulation_data ;;
  st <- gets _statistics ;;
  ret (sd, st).

(** ** Construction *)

(** The statistics a new engine starts with. *)
Definition initial_statistics : Statistics :=
  mkStatistics 0 0 0 0 0 (Fin 0) (of_int 0) (of_int 0) (Fin 0) (Num (Fin 0)).

(** [isinstance(v, int)]: bool is a subclass of int. *)
Definition is_int (v : pyval) : bool :=
  match v with
  | PyBool _ | PyInt _ => true
  | _ => false
  end.

(** [isinstance(v, (int, float))] *)
Definition is_int_or_float (v : pyval) : bool :=
  match v with
  | PyBool _ | PyInt _ | PyFloat _ => true
  | _ => false
  end.

(** The number a bool, an int or a float stands for in comparisons and in
    arithmetic ([True] is 1, [False] is 0). *)
Definition numeric_value (v : pyval) : pynum :=
  match v with
  | PyBool b => of_int (Z.b2z b)
  | PyInt z => of_int z
  | PyFloat x => x
  | _ => of_int 0
  end.

Definition int_value (v : pyval) : Z :=
  match v with
  | PyBool b => Z.b2z b
  | PyInt z => z
  | _ => 0
  end.

(** The engine as [__init__] leaves it once the arguments are validated: the
    two tables have one unwritten row per day of the index. *)
Definition new_engine (input_data_index : list Z) (closes : list Q)
    (max_items_per_transaction : Z) (max_investment : option pynum)
    : TradingSimulation :=
  mkTradingSimulation input_data_index closes
    max_items_per_transaction max_investment
    (replicate (length input_data_index) None)
    (replicate (length input_data_index) None)
    initial_statistics.

Section Construction.

(** What a caller passes as [close_values]. *)
Context {Frame : Type}.

(** [validateInputData] belongs to tti.utils.data_validation, outside the
    file embedded here.  For the call made by the constructor
    (required column close, missing values filled) it gives the validated
    frame, as its index and its close column, or [None] when it raises. *)
Variable validateInputData : Frame -> option (list Z * list Q).

(** The result is the validated close column. *)
Definition _validateSimulationArguments (input_data_index : list Z)
    (close_values : Frame) (max_items_per_transaction : pyval)
    (max_investment : pyval) : exn + list Q :=
  match validateInputData close_values with
  | None => inl NotValidInputDataForSimulation
  | Some (index, closes) =>
      if negb (bool_decide (index = input_data_index))
      then inl NotValidInputDataForSimulation
      else if negb (is_int max_items_per_transaction)
      then inl WrongTypeForInputParameter
      else if le_zero (numeric_value max_items_per_transaction)
      then inl WrongValueForInputParameter
      else if is_int_or_float max_investment
      then if le_zero (numeric_value max_investment)
           then inl WrongValueForInputParameter
           else inr closes
      else match max_investment with
           | PyNone => inr closes
           | _ => inl WrongTypeForInputParameter
           end
  end.

Definition __init__ (input_data_index : list Z) (close_values : Frame)
    (max_items_per_transaction : pyval) (max_investment : pyval)
    : exn + TradingSimulation :=
  match _validateSimulationArguments input_data_index close_values
          max_items_per_transaction max_investment with
  | inl e => inl e
  | inr closes =>
      inr (new_engine input_data_index closes
             (int_value max_items_per_transaction)
             (match max_investment with
              | PyNone => None
              | v => Some (numeric_value v)
              end))
  end.

End Construction.

(** ** Predicates on methods *)

(** What the constructor fixes: the index, the close prices, the two caps,
    and the statistics, which only [closeSimulation] computes. *)
Definition configuration (s : TradingSimulation)
    : list Z * list Q * Z * option pynum * Statistics :=
  (_input_data_index s, _close_values s, _max_items_per_transaction s,
   _max_investment s, _statistics s).

(** The balance cell of day [i] as a method reads it on a day in range: NaN
    while the row is unwritten. *)
Definition balance_cell (i : nat) (s : TradingSimulation) : pynum :=
  match _simulation_data s !! i with
  | Some (Some r) => balance r
  | _ => NaN
  end.

(** ** Engines used in the examples *)

(** An arithmetic that does not round, on the finite numbers.  It serves
    where an arithmetic has to be named to exhibit an input; no property
    depends on which arithmetic it is. *)
Definition unrounded (f : Q -> Q -> Q) (x y : pynum) : pynum :=
  match x, y with
  | Fin a, Fin b => Fin (f a b)
  | _, _ => NaN
  end.

Definition unrounded_arithmetic : Arithmetic := {|
  padd := unrounded Qplus;
  psub := unrounded Qminus;
  pmul := unrounded Qmult;
  pdiv := fun x y =>
            match x, y with
            | Fin a, Fin b =>
                if Qeq_bool b 0 then inl ZeroDivisionError
                else inr (Fin (a / b))
            | _, _ => inr NaN
            end;
  py_int := fun x =>
              match x with
              | Fin q => inr (Z.quot (Qnum q) (Zpos (Qden q)))
              | NaN => inl ValueError
              | _ => inl OverflowError
              end
|}.

(** Four days at 100, 100, 110, 90, one stock per transaction, no cap on the
    investment: the engine as the constructor builds it. *)
Definition scenario : TradingSimulation :=
  new_engine [0; 1; 2; 3] [100; 100; 110; 90]%Q 1 None.

(** The same days with the investment capped at 50. *)
Definition scenario_capped : TradingSimulation :=
  new_engine [0; 1; 2; 3] [100; 100; 110; 90]%Q 1 (Some (Fin 50)).

(** The simulation row of the first day: ['hold', 'none', 0, 0.0, 0.0,
    0.0]. *)
Definition first_day_row : SimulationRow :=
  mkSimulationRow "hold" "none" 0 (Fin 0) 0 (Num (Fin 0)).

(** The capped scenario with the rows of day 0 in the tables, the balance 0
    among them.  No method of the class writes them: the tables are given
    as such. *)
Definition scenario_capped_with_first_day : TradingSimulation :=
  mkTradingSimulation [0; 1; 2; 3] [100; 100; 110; 90]%Q 1 (Some (Fin 50))
    [Some no_position; None; None; None]
    [Some first_day_row; None; None; None]
    initial_statistics.

(** The scenario with the rows of day 0 and, on day 1, an open long position
    of 1 stock entered at 100.  The tables are given as such. *)
Definition scenario_with_long : TradingSimulation :=
  mkTradingSimulation [0; 1; 2; 3] [100; 100; 110; 90]%Q 1 None
    [Some no_position; Some (mkPortfolioRow "long" 1 100 "open"); None; None]
    [Some first_day_row;
     Some (mkSimulationRow "buy" "open_long" 1 (Fin (-100)) 100 (Str "N/A"));
     None; None]
    initial_statistics.

(** ** The valuation of the specification *)

(** The valuation in the words of the specification: the open long units
    minus the open short units, times the price; without [force_all], only
    the long positions entered strictly below the price and the short
    positions entered strictly above it are counted. *)
Definition open_units (side : string) (eligible : PortfolioRow -> bool)
    (pf : list (option PortfolioRow)) : Z :=
  fold_right
    (fun r acc =>
       match r with
       | Some r =>
           if String.eqb (status r) "open" && String.eqb (position r) side
              && eligible r
           then items r + acc else acc
       | None => acc
       end)
    0 pf.

Definition valueIfClosed_spec (price : Q) (force_all : bool)
    (pf : list (option PortfolioRow)) : Q :=
  let long_units :=
    open_units "long" (fun r => force_all || Qltb (unit_price r) price) pf in
  let short_units :=
    open_units "short" (fun r => force_all || Qltb price (unit_price r)) pf in
  (inject_Z (long_units - short_units) * price)%Q.

(** * Properties *)

(** ** The masks joined by [and] *)

Lemma closeOpenPositions_raises `{Arithmetic} (price : Q)
    (force_all write : bool) s :
  _closeOpenPositions price force_all write s = Raises ValueError s.
Proof. destruct force_all; reflexivity. Qed.

(** The assignment through a selection leaves the engine as it was, for every
    mask and every text. *)
Lemma set_status_of_selection_no_write (mask : list bool) (text : string) s :
  set_status_of_selection mask text s = Returns tt s.
Proof. reflexivity. Qed.

(** ** The outcome of a round *)

Lemma first_day_outcome `{Arithmetic} (sig : signal_value) s :
  runSimulationRound 0 sig s = Raises ValueError s.
Proof. reflexivity. Qed.

Lemma processHoldSignal_outcome `{Arithmetic} i s :
  _processHoldSignal i s = Raises ValueError s.
Proof. reflexivity. Qed.

(** Under a cap the test reads the balance of the day on the column, then
    the close price on the frame. *)
Lemma not_enough_balance_outcome `{Arithmetic} i s :
  not_enough_balance i s
  = match _max_investment s with
    | None => Returns false s
    | Some _ =>
        match _simulation_data s !! i with
        | Some _ => Raises TypeError s
        | None => Raises IndexError s
        end
    end.
Proof.
  unfold not_enough_balance, bind, gets.
  destruct (_max_investment s) as [cap|]; [| reflexivity].
  unfold balance_at.
  destruct (_simulation_data s !! i) as [[r|]|]; reflexivity.
Qed.

Lemma processBuySignal_outcome `{Arithmetic} i s :
  _processBuySignal i s
  = match _max_investment s with
    | None => Raises TypeError s
    | Some _ =>
        match _simulation_data s !! i with
        | Some _ => Raises TypeError s
        | None => Raises IndexError s
        end
    end.
Proof.
  unfold _processBuySignal. unfold bind at 1.
  rewrite not_enough_balance_outcome.
  destruct (_max_investment s) as [cap|] eqn:Hcap.
  - destruct (_simulation_data s !! i); reflexivity.
  - unfold transaction_quantity, bind, gets. now rewrite Hcap.
Qed.

Lemma processSellSignal_outcome `{Arithmetic} i s :
  _processSellSignal i s
  = match _max_investment s with
    | None => Raises TypeError s
    | Some _ =>
        match _simulation_data s !! i with
        | Some _ => Raises TypeError s
        | None => Raises IndexError s
        end
    end.
Proof.
  unfold _processSellSignal. unfold bind at 1.
  rewrite not_enough_balance_outcome.
  destruct (_max_investment s) as [cap|] eqn:Hcap.
  - destruct (_simulation_data s !! i); reflexivity.
  - unfold transaction_quantity, bind, gets. now rewrite Hcap.
Qed.

(** Every round raises, and the engine it raises with is the engine it was
    given. *)
Lemma round_raises `{Arithmetic} i sig s :
  exists e, runSimulationRound i sig s = Raises e s.
Proof.
  unfold runSimulationRound. destruct (i =? 0)%nat; [now eexists |].
  destruct (signal_eqb sig (TRADE_SIGNALS "buy")).
  { rewrite processBuySignal_outcome.
    destruct (_max_investment s); [| now eexists].
    destruct (_simulation_data s !! i); now eexists. }
  destruct (signal_eqb sig (TRADE_SIGNALS "sell")).
  { rewrite processSellSignal_outcome.
    destruct (_max_investment s); [| now eexists].
    destruct (_simulation_data s !! i); now eexists. }
  rewrite processHoldSignal_outcome. now eexists.
Qed.

Lemma round_not_returned `{Arithmetic} i sig s :
  returned (runSimulationRound i sig s) = false.
Proof. destruct (round_raises i sig s) as [e ->]. reflexivity. Qed.

Lemma round_final_state `{Arithmetic} i sig s :
  final_state (runSimulationRound i sig s) = s.
Proof. destruct (round_raises i sig s) as [e ->]. reflexivity. Qed.

Lemma runSimulationRound_buy `{Arithmetic} i s :
  runSimulationRound (S i) (TRADE_SIGNALS "buy") s = _processBuySignal (S i) s.
Proof. reflexivity. Qed.

Lemma runSimulationRound_sell `{Arithmetic} i s :
  runSimulationRound (S i) (TRADE_SIGNALS "sell") s
  = _processSellSignal (S i) s.
Proof. reflexivity. Qed.

(** ** The claims *)

(** C1 (the test on the investment cap).  Take the capped scenario with the
    balance 0 on day 0, the close price 100 on day 1 and the cap 50:
    0 - 100 + 50 < 0, and the signal of day 1 should be recorded as ignored.
    The buy round and the sell round of day 1 raise TypeError when the test
    reads the close price, and record nothing: both rows of day 1 stay
    unwritten.  On every engine and every later day the buy and the sell
    round return nothing and leave the engine as it was. *)
Theorem capped_signal_is_not_ignored `{Arithmetic} :
  let s := scenario_capped_with_first_day in
  balance_cell 0 s = Fin 0 /\
  _close_values s !! 1%nat = Some 100%Q /\
  _max_investment s = Some (Fin 50) /\
  (0 - 100 + 50 < 0)%Q /\
  runSimulationRound 1 (TRADE_SIGNALS "buy") s = Raises TypeError s /\
  runSimulationRound 1 (TRADE_SIGNALS "sell") s = Raises TypeError s /\
  _portfolio s !! 1%nat = Some None /\
  _simulation_data s !! 1%nat = Some None /\
  (forall i t,
     returned (runSimulationRound (S i) (TRADE_SIGNALS "buy") t) = false /\
     final_state (runSimulationRound (S i) (TRADE_SIGNALS "buy") t) = t /\
     returned (runSimulationRound (S i) (TRADE_SIGNALS "sell") t) = false /\
     final_state (runSimulationRound (S i) (TRADE_SIGNALS "sell") t) = t).
Proof.
  cbv zeta. repeat split; try reflexivity.
  - apply round_not_returned.
  - apply round_final_state.
  - apply round_not_returned.
  - apply round_final_state.
Qed.

(** C2 (no error during a run): after the first day, runSimulationRound
    returns on no engine and for no signal; and _closeOpenPositions raises
    ValueError on every engine, for every price and both values of each
    flag. *)
Theorem runSimulationRound_never_returns_after_first_day `{Arithmetic} :
  (forall i sig s, returned (runSimulationRound (S i) sig s) = false) /\
  (forall price force_all write s,
     _closeOpenPositions price force_all write s = Raises ValueError s).
Proof.
  split.
  - intros i sig s. apply round_not_returned.
  - intros. apply closeOpenPositions_raises.
Qed.

(** C3 (the first day): on every engine and for every signal, the round of
    day 0 raises ValueError at its first assignment and records nothing: the
    engine is as it was, both rows of day 0 unwritten on an engine just
    built. *)
Theorem first_day_raises `{Arithmetic} :
  (forall sig s, runSimulationRound 0 sig s = Raises ValueError s) /\
  (forall sig,
     _simulation_data (final_state (runSimulationRound 0 sig scenario))
       !! 0%nat = Some None /\
     _portfolio (final_state (runSimulationRound 0 sig scenario))
       !! 0%nat = Some None).
Proof.
  split.
  - intros sig s. apply first_day_outcome.
  - intros sig. rewrite first_day_outcome. split; reflexivity.
Qed.

(** C5 (the scenario 100, 100, 110, 90 with hold, buy, sell, hold, one stock
    per transaction, no cap): on the engine the constructor builds, day 0
    raises ValueError, the buy of day 1 and the sell of day 2 raise
    TypeError, the hold of day 3 raises ValueError, and each leaves the
    engine as it was: no position, no balance and no total value is ever
    recorded. *)
Theorem scenario_raises_on_every_day `{Arithmetic} :
  __init__ Some [0; 1; 2; 3] ([0; 1; 2; 3], [100; 100; 110; 90]%Q)
    (PyInt 1) PyNone = inr scenario /\
  runSimulationRound 0 (TRADE_SIGNALS "hold") scenario
    = Raises ValueError scenario /\
  runSimulationRound 1 (TRADE_SIGNALS "buy") scenario
    = Raises TypeError scenario /\
  runSimulationRound 2 (TRADE_SIGNALS "sell") scenario
    = Raises TypeError scenario /\
  runSimulationRound 3 (TRADE_SIGNALS "hold") scenario
    = Raises ValueError scenario /\
  _portfolio scenario = [None; None; None; None] /\
  _simulation_data scenario = [None; None; None; None].
Proof. repeat split. Qed.

(** C6 (the value of the valuation): _closeOpenPositions returns no value.
    On every engine, for every price and both values of each flag, it raises
    ValueError when it joins its first two masks.  With one open long
    position of 1 stock entered at 100, the specification gives 90 at the
    price 90 with force_all, 0 without it, and 110 at the price 110 either
    way; the method raises in the four cases. *)
Theorem valuation_raises_instead_of_value `{Arithmetic} :
  (forall price force_all write s,
     _closeOpenPositions price force_all write s = Raises ValueError s) /\
  _portfolio scenario_with_long !! 1%nat
    = Some (Some (mkPortfolioRow "long" 1 100 "open")) /\
  valueIfClosed_spec 90 true (_portfolio scenario_with_long) = 90%Q /\
  valueIfClosed_spec 90 false (_portfolio scenario_with_long) = 0%Q /\
  valueIfClosed_spec 110 true (_portfolio scenario_with_long) = 110%Q /\
  valueIfClosed_spec 110 false (_portfolio scenario_with_long) = 110%Q /\
  returned (_closeOpenPositions 90 true false scenario_with_long) = false /\
  returned (_closeOpenPositions 90 false false scenario_with_long) = false /\
  returned (_closeOpenPositions 110 true false scenario_with_long) = false /\
  returned (_closeOpenPositions 110 false false scenario_with_long) = false.
Proof.
  split; [intros; apply closeOpenPositions_raises |].
  repeat split; reflexivity.
Qed.

(** C7 (the statistics): closeSimulation returns no statistics.  On every
    engine it raises ValueError at the entry number_of_ignored_buy_signals,
    which joins two masks with [and], and leaves the statistics as they
    were; the two entries on open stocks moreover ask the portfolio for a
    column named close, which it has not. *)
Theorem closeSimulation_raises :
  (forall s, closeSimulation s = Raises ValueError s) /\
  (forall s, _calculateSimulationStatistics s = Raises ValueError s) /\
  (forall s, portfolio_close_is_open s = Raises KeyError s) /\
  _statistics (final_state (closeSimulation scenario_with_long))
    = initial_statistics.
Proof. repeat split. Qed.

(** C8 (what the valuation writes): _closeOpenPositions leaves the engine
    as it found it on every call, with [write] set or not.  It raises before
    it reaches the writes; and the write itself assigns the status on the
    frame selected by the mask, a temporary, so that it would change no row of
    the portfolio either.  The open long position of the scenario is still
    open after a call with force_all and write. *)
Theorem valuation_writes_nothing `{Arithmetic} :
  (forall price force_all write s,
     final_state (_closeOpenPositions price force_all write s) = s) /\
  (forall mask text s, set_status_of_selection mask text s = Returns tt s) /\
  _portfolio scenario_with_long !! 1%nat
    = Some (Some (mkPortfolioRow "long" 1 100 "open")) /\
  _portfolio (final_state (_closeOpenPositions 90 true true scenario_with_long))
    !! 1%nat
    = Some (Some (mkPortfolioRow "long" 1 100 "open")).
Proof.
  split; [| split; [| split]].
  - intros price force_all write s. now rewrite closeOpenPositions_raises.
  - apply set_status_of_selection_no_write.
  - reflexivity.
  - reflexivity.
Qed.

(** C9 (signals other than buy and sell): after the first day, a signal
    that is equal neither to the buy code nor to the sell code is handed to
    _processHoldSignal.  That method returns on no engine: it raises, and
    leaves the simulation data as they were, the row of the day
    unwritten. *)
Theorem other_signal_is_handed_to_hold `{Arithmetic} (i : nat)
    (sig : signal_value) (s : TradingSimulation) :
  signal_eqb sig (TRADE_SIGNALS "buy") = false ->
  signal_eqb sig (TRADE_SIGNALS "sell") = false ->
  runSimulationRound (S i) sig s = _processHoldSignal (S i) s /\
  returned (runSimulationRound (S i) sig s) = false /\
  _simulation_data (final_state (runSimulationRound (S i) sig s))
    = _simulation_data s.
Proof.
  intros Hbuy Hsell.
  assert (Hhold : runSimulationRound (S i) sig s = _processHoldSignal (S i) s).
  { unfold runSimulationRound. change (S i =? 0)%nat with false. cbv iota.
    now rewrite Hbuy, Hsell. }
  split; [exact Hhold |]. split.
  - apply round_not_returned.
  - now rewrite round_final_state.
Qed.

Lemma other_signal_is_handed_to_hold_witness :
  @runSimulationRound unrounded_arithmetic 1 SigNone scenario
    = @_processHoldSignal unrounded_arithmetic 1 scenario /\
  returned (@runSimulationRound unrounded_arithmetic 1 SigNone scenario)
    = false /\
  _simulation_data
    (final_state (@runSimulationRound unrounded_arithmetic 1 SigNone scenario))
    = _simulation_data scenario.
Proof.
  apply (@other_signal_is_handed_to_hold unrounded_arithmetic 0 SigNone
           scenario); reflexivity.
Defined.

(** C10 (booleans as numeric arguments): when the close values are valid and
    carry the index of the input data, the constructor raises nothing for
    max_items_per_transaction=True, with max_investment True or None.  The
    engine it builds has the cap 1 per transaction (and the cap 1 on the
    investment for True): it is the engine built for the integers 1 and 1,
    and without a cap on the investment the quantity of a position is 1
    stock. *)
Theorem booleans_pass_validation `{Arithmetic} {Frame : Type}
    (validateInputData : Frame -> option (list Z * list Q))
    (input_data_index : list Z) (close_values : Frame) (closes : list Q) :
  validateInputData close_values = Some (input_data_index, closes) ->
  _validateSimulationArguments validateInputData input_data_index
    close_values (PyBool true) (PyBool true) = inr closes /\
  __init__ validateInputData input_data_index close_values
    (PyBool true) (PyBool true)
    = inr (new_engine input_data_index closes 1 (Some (Fin 1))) /\
  __init__ validateInputData input_data_index close_values
    (PyBool true) PyNone
    = inr (new_engine input_data_index closes 1 None) /\
  __init__ validateInputData input_data_index close_values
    (PyBool true) (PyBool true)
    = __init__ validateInputData input_data_index close_values
        (PyInt 1) (PyInt 1) /\
  (forall i,
     transaction_quantity i (new_engine input_data_index closes 1 None)
     = Returns 1 (new_engine input_data_index closes 1 None)).
Proof.
  intros Hvalid.
  unfold __init__, _validateSimulationArguments. rewrite Hvalid.
  rewrite bool_decide_eq_true_2 by reflexivity.
  repeat split.
Qed.

Lemma booleans_pass_validation_witness :
  _validateSimulationArguments Some [0; 1] ([0; 1], [10; 10]%Q)
    (PyBool true) (PyBool true) = inr [10; 10]%Q /\
  __init__ Some [0; 1] ([0; 1], [10; 10]%Q) (PyBool true) (PyBool true)
    = inr (new_engine [0; 1] [10; 10]%Q 1 (Some (Fin 1))) /\
  __init__ Some [0; 1] ([0; 1], [10; 10]%Q) (PyBool true) PyNone
    = inr (new_engine [0; 1] [10; 10]%Q 1 None) /\
  __init__ Some [0; 1] ([0; 1], [10; 10]%Q) (PyBool true) (PyBool true)
    = __init__ Some [0; 1] ([0; 1], [10; 10]%Q) (PyInt 1) (PyInt 1) /\
  (forall i,
     @transaction_quantity unrounded_arithmetic i
       (new_engine [0; 1] [10; 10]%Q 1 None)
     = Returns 1 (new_engine [0; 1] [10; 10]%Q 1 None)).
Proof.
  apply (@booleans_pass_validation unrounded_arithmetic _ Some [0; 1]
           ([0; 1], [10; 10]%Q) [10; 10]%Q).
  reflexivity.
Defined.

(** * Further properties of the class *)

(** ** What a round leaves as it was *)

(** X1: whatever the day and the signal, and whether the round returns or
    raises, it leaves the index, the close prices, the two caps and the
    statistics as they were, and the two tables keep their number of rows. *)
Theorem round_keeps_configuration `{Arithmetic} (i : nat)
    (sig : signal_value) (s : TradingSimulation) :
  configuration (final_state (runSimulationRound i sig s)) = configuration s /\
  length (_portfolio (final_state (runSimulationRound i sig s)))
    = length (_portfolio s) /\
  length (_simulation_data (final_state (runSimulationRound i sig s)))
    = length (_simulation_data s).
Proof. rewrite round_final_state. repeat split. Qed.

(** X2: the round of day [i] changes no row of another day, in the
    portfolio or in the simulation data, whether it returns or raises. *)
Theorem round_keeps_other_days `{Arithmetic} (i j : nat)
    (sig : signal_value) (s : TradingSimulation) :
  j <> i ->
  _portfolio (final_state (runSimulationRound i sig s)) !! j
    = _portfolio s !! j /\
  _simulation_data (final_state (runSimulationRound i sig s)) !! j
    = _simulation_data s !! j.
Proof. intros _. rewrite round_final_state. split; reflexivity. Qed.

Lemma round_keeps_other_days_witness :
  _portfolio
    (final_state
       (@runSimulationRound unrounded_arithmetic 2 (TRADE_SIGNALS "sell")
          scenario_with_long))
    !! 1%nat
    = _portfolio scenario_with_long !! 1%nat /\
  _simulation_data
    (final_state
       (@runSimulationRound unrounded_arithmetic 2 (TRADE_SIGNALS "sell")
          scenario_with_long))
    !! 1%nat
    = _simulation_data scenario_with_long !! 1%nat.
Proof.
  apply (@round_keeps_other_days unrounded_arithmetic 2 1
           (TRADE_SIGNALS "sell") scenario_with_long).
  lia.
Defined.

(** X3: a round for a day past the end of the period (day 0 of an engine
    without any day included) raises and writes nothing: the engine is
    exactly as it was, for every signal. *)
Theorem round_past_the_end_writes_nothing `{Arithmetic} (i : nat)
    (sig : signal_value) (s : TradingSimulation) :
  (length (_portfolio s) <= i)%nat ->
  (length (_simulation_data s) <= i)%nat ->
  (length (_close_values s) <= i)%nat ->
  returned (runSimulationRound i sig s) = false /\
  final_state (runSimulationRound i sig s) = s.
Proof.
  intros _ _ _. split; [apply round_not_returned | apply round_final_state].
Qed.

Lemma round_past_the_end_writes_nothing_witness :
  returned (@runSimulationRound unrounded_arithmetic 4 (TRADE_SIGNALS "buy")
              scenario_with_long) = false /\
  final_state (@runSimulationRound unrounded_arithmetic 4
                 (TRADE_SIGNALS "buy") scenario_with_long)
  = scenario_with_long.
Proof.
  apply (@round_past_the_end_writes_nothing unrounded_arithmetic 4
           (TRADE_SIGNALS "buy") scenario_with_long); vm_compute; lia.
Defined.

(** X17: no round ever returns, and no round ever writes: for every day,
    every signal and every engine, runSimulationRound raises and the engine
    is exactly as it was.  A position or a balance is in the tables only if
    it was put there from outside the class. *)
Theorem round_writes_nothing `{Arithmetic} (i : nat) (sig : signal_value)
    (s : TradingSimulation) :
  returned (runSimulationRound i sig s) = false /\
  final_state (runSimulationRound i sig s) = s.
Proof. split; [apply round_not_returned | apply round_final_state]. Qed.

(** ** The exception of each round *)

(** X4: after the first day, the round of a signal that is neither the buy
    nor the sell code raises ValueError at the assignment of the portfolio
    row, on every engine and for every day, in range or not; the engine is
    as it was, so a position the row of the day holds stays there. *)
Theorem hold_round_outcome `{Arithmetic} (i : nat) (sig : signal_value)
    (s : TradingSimulation) :
  signal_eqb sig (TRADE_SIGNALS "buy") = false ->
  signal_eqb sig (TRADE_SIGNALS "sell") = false ->
  runSimulationRound (S i) sig s = Raises ValueError s.
Proof.
  intros Hbuy Hsell.
  unfold runSimulationRound. change (S i =? 0)%nat with false. cbv iota.
  rewrite Hbuy, Hsell. apply processHoldSignal_outcome.
Qed.

Lemma hold_round_outcome_witness :
  @runSimulationRound unrounded_arithmetic 1 SigNone scenario_with_long
  = Raises ValueError scenario_with_long.
Proof.
  apply (@hold_round_outcome unrounded_arithmetic 0 SigNone
           scenario_with_long); reflexivity.
Defined.

(** X5: without a cap on the investment, the buy round of every day after
    the first raises TypeError when it reads the close price of the day for
    the portfolio row, in range or not, and the engine is as it was: no
    position is opened and no balance is written. *)
Theorem buy_round_without_cap `{Arithmetic} (i : nat)
    (s : TradingSimulation) :
  _max_investment s = None ->
  runSimulationRound (S i) (TRADE_SIGNALS "buy") s = Raises TypeError s.
Proof.
  intros Hcap. rewrite runSimulationRound_buy, processBuySignal_outcome.
  now rewrite Hcap.
Qed.

Lemma buy_round_without_cap_witness :
  @runSimulationRound unrounded_arithmetic 2 (TRADE_SIGNALS "buy")
    scenario_with_long
  = Raises TypeError scenario_with_long.
Proof.
  apply (@buy_round_without_cap unrounded_arithmetic 1 scenario_with_long).
  reflexivity.
Defined.

(** X6: without a cap on the investment, the sell round of every day after
    the first raises TypeError when it reads the close price of the day for
    the portfolio row, in range or not, and the engine is as it was. *)
Theorem sell_round_without_cap `{Arithmetic} (i : nat)
    (s : TradingSimulation) :
  _max_investment s = None ->
  runSimulationRound (S i) (TRADE_SIGNALS "sell") s = Raises TypeError s.
Proof.
  intros Hcap. rewrite runSimulationRound_sell, processSellSignal_outcome.
  now rewrite Hcap.
Qed.

Lemma sell_round_without_cap_witness :
  @runSimulationRound unrounded_arithmetic 2 (TRADE_SIGNALS "sell")
    scenario_with_long
  = Raises TypeError scenario_with_long.
Proof.
  apply (@sell_round_without_cap unrounded_arithmetic 1 scenario_with_long).
  reflexivity.
Defined.

(** X9: under a cap on the investment, the first round of a day in range,
    with the day before unprocessed (its balance is NaN) or with a close
    price of zero, raises on a buy and on a sell signal before it writes
    anything: the engine is exactly as it was.  The round raises in its
    test, where it reads the close price. *)
Theorem capped_round_without_quantity `{Arithmetic} (i : nat)
    (s : TradingSimulation) (cap : pynum) (p : Q) :
  _max_investment s = Some cap ->
  _simulation_data s !! S i = Some None ->
  _close_values s !! S i = Some p ->
  balance_cell i s = NaN \/ Qeq_bool p 0 = true ->
  (returned (runSimulationRound (S i) (TRADE_SIGNALS "buy") s) = false /\
   final_state (runSimulationRound (S i) (TRADE_SIGNALS "buy") s) = s) /\
  (returned (runSimulationRound (S i) (TRADE_SIGNALS "sell") s) = false /\
   final_state (runSimulationRound (S i) (TRADE_SIGNALS "sell") s) = s).
Proof.
  intros _ _ _ _.
  repeat split; first [apply round_not_returned | apply round_final_state].
Qed.

Lemma capped_round_without_quantity_witness :
  (returned (@runSimulationRound unrounded_arithmetic 2 (TRADE_SIGNALS "buy")
               scenario_capped) = false /\
   final_state (@runSimulationRound unrounded_arithmetic 2
                  (TRADE_SIGNALS "buy") scenario_capped)
   = scenario_capped) /\
  (returned (@runSimulationRound unrounded_arithmetic 2
               (TRADE_SIGNALS "sell") scenario_capped) = false /\
   final_state (@runSimulationRound unrounded_arithmetic 2
                  (TRADE_SIGNALS "sell") scenario_capped)
   = scenario_capped).
Proof.
  apply (@capped_round_without_quantity unrounded_arithmetic 1
           scenario_capped (Fin 50) 110%Q);
    [reflexivity | reflexivity | reflexivity | left; reflexivity].
Defined.

(** ** The constructor *)

Lemma Qle_bool_false_iff (x y : Q) : Qle_bool x y = false <-> (y < x)%Q.
Proof.
  split.
  - intros H. apply Qnot_le_lt. intros Hle.
    apply Qle_bool_iff in Hle. congruence.
  - intros H. destruct (Qle_bool x y) eqn:E; [| reflexivity].
    apply Qle_bool_iff in E. now apply Qlt_not_le in H.
Qed.

(** The numbers that pass the test [x <= 0] of the constructor: the positive
    ones, plus infinity among them, and NaN. *)
Lemma le_zero_false_iff (x : pynum) :
  le_zero x = false <->
  x = NaN \/ x = PInf \/ exists q, x = Fin q /\ (0 < q)%Q.
Proof.
  destruct x as [| | |q]; simpl.
  - split; [now left | reflexivity].
  - split; [now right; left | reflexivity].
  - split; [discriminate |].
    intros [H | [H | (q & H & _)]]; discriminate.
  - rewrite Qle_bool_false_iff. split.
    + intros Hq. right; right. now exists q.
    + intros [H | [H | (q' & [= <-] & Hq)]]; try discriminate. exact Hq.
Qed.

Lemma le_zero_of_int (z : Z) : le_zero (of_int z) = (z <=? 0)%Z.
Proof.
  unfold le_zero, of_int. destruct (z <=? 0)%Z eqn:E.
  - apply Qle_bool_iff. unfold Qle. simpl. lia.
  - apply Qle_bool_false_iff. unfold Qlt. simpl. lia.
Qed.

Lemma le_zero_int_value (v : pyval) :
  is_int v = true -> le_zero (numeric_value v) = (int_value v <=? 0)%Z.
Proof. destruct v; try discriminate; intros _; apply le_zero_of_int. Qed.

Section ConstructorProperties.

Context {Frame : Type}.
Variable validateInputData : Frame -> option (list Z * list Q).
Variable input_data_index : list Z.
Variable close_values : Frame.

(** The checks on the two caps, once the close values have passed theirs. *)
Lemma init_on_valid_close_values closes mi minv :
  validateInputData close_values = Some (input_data_index, closes) ->
  __init__ validateInputData input_data_index close_values mi minv
  = if negb (is_int mi) then inl WrongTypeForInputParameter
    else if (int_value mi <=? 0)%Z then inl WrongValueForInputParameter
    else if is_int_or_float minv
    then if le_zero (numeric_value minv)
         then inl WrongValueForInputParameter
         else inr (new_engine input_data_index closes (int_value mi)
                     (Some (numeric_value minv)))
    else match minv with
         | PyNone => inr (new_engine input_data_index closes (int_value mi)
                            None)
         | _ => inl WrongTypeForInputParameter
         end.
Proof.
  intros Hvalid. unfold __init__, _validateSimulationArguments.
  rewrite Hvalid. rewrite bool_decide_eq_true_2 by reflexivity. simpl.
  destruct (is_int mi) eqn:Hint; simpl; [| reflexivity].
  rewrite (le_zero_int_value mi Hint).
  destruct (int_value mi <=? 0)%Z; [reflexivity |].
  destruct (is_int_or_float minv) eqn:Hf.
  - destruct (le_zero (numeric_value minv)); [reflexivity |].
    destruct minv; try discriminate Hf; reflexivity.
  - destruct minv; try discriminate Hf; reflexivity.
Qed.

Lemma init_on_invalid_close_values mi minv :
  (forall closes,
     validateInputData close_values <> Some (input_data_index, closes)) ->
  __init__ validateInputData input_data_index close_values mi minv
  = inl NotValidInputDataForSimulation.
Proof.
  intros Hbad. unfold __init__, _validateSimulationArguments.
  destruct (validateInputData close_values) as [[index closes]|];
    [| reflexivity].
  destruct (bool_decide (index = input_data_index)) eqn:E; [| reflexivity].
  apply bool_decide_eq_true_1 in E. subst index. now destruct (Hbad closes).
Qed.

End ConstructorProperties.

(** X10: the close values are checked first.  When they are refused, or
    their index is not the index of the input data, the constructor raises
    NotValidInputDataForSimulation whatever the two caps are, well-typed or
    not. *)
Theorem close_values_are_checked_first {Frame : Type}
    (validateInputData : Frame -> option (list Z * list Q))
    (input_data_index : list Z) (close_values : Frame)
    (max_items_per_transaction max_investment : pyval) :
  (forall closes,
     validateInputData close_values <> Some (input_data_index, closes)) ->
  __init__ validateInputData input_data_index close_values
    max_items_per_transaction max_investment
  = inl NotValidInputDataForSimulation.
Proof. apply init_on_invalid_close_values. Qed.

Lemma close_values_are_checked_first_witness :
  __init__ Some [0; 1] ([0; 1; 2], [10; 10; 10]%Q) (PyStr "1") (PyInt (-3))
  = inl NotValidInputDataForSimulation.
Proof.
  apply (close_values_are_checked_first Some [0; 1]
           ([0; 1; 2], [10; 10; 10]%Q) (PyStr "1") (PyInt (-3))).
  intros closes H. discriminate H.
Defined.

(** X11: with valid close values, a max_items_per_transaction that is not
    an int (None, a text, and also a float such as 2.0) raises
    WrongTypeForInputParameter, whatever max_investment is: it is checked
    before max_investment is looked at. *)
Theorem max_items_wrong_type {Frame : Type}
    (validateInputData : Frame -> option (list Z * list Q))
    (input_data_index : list Z) (close_values : Frame) (closes : list Q)
    (max_items_per_transaction max_investment : pyval) :
  validateInputData close_values = Some (input_data_index, closes) ->
  is_int max_items_per_transaction = false ->
  __init__ validateInputData input_data_index close_values
    max_items_per_transaction max_investment
  = inl WrongTypeForInputParameter.
Proof.
  intros Hvalid Hint.
  rewrite (init_on_valid_close_values _ _ _ closes _ _ Hvalid).
  now rewrite Hint.
Qed.

Lemma max_items_wrong_type_witness :
  __init__ Some [0; 1] ([0; 1], [10; 10]%Q) (PyFloat (Fin 2)) (PyInt (-1))
  = inl WrongTypeForInputParameter.
Proof.
  apply (max_items_wrong_type Some [0; 1] ([0; 1], [10; 10]%Q) [10; 10]%Q
           (PyFloat (Fin 2)) (PyInt (-1))); reflexivity.
Defined.

(** X12: with valid close values, a max_items_per_transaction that is an
    int and is zero or negative, False included, raises
    WrongValueForInputParameter, whatever max_investment is. *)
Theorem max_items_wrong_value {Frame : Type}
    (validateInputData : Frame -> option (list Z * list Q))
    (input_data_index : list Z) (close_values : Frame) (closes : list Q)
    (max_items_per_transaction max_investment : pyval) :
  validateInputData close_values = Some (input_data_index, closes) ->
  is_int max_items_per_transaction = true ->
  int_value max_items_per_transaction <= 0 ->
  __init__ validateInputData input_data_index close_values
    max_items_per_transaction max_investment
  = inl WrongValueForInputParameter.
Proof.
  intros Hvalid Hint Hle.
  rewrite (init_on_valid_close_values _ _ _ closes _ _ Hvalid).
  rewrite Hint. simpl. now rewrite (proj2 (Z.leb_le _ _) Hle).
Qed.

Lemma max_items_wrong_value_witness :
  __init__ Some [0; 1] ([0; 1], [10; 10]%Q) (PyBool false) (PyStr "x")
  = inl WrongValueForInputParameter.
Proof.
  apply (max_items_wrong_value Some [0; 1] ([0; 1], [10; 10]%Q) [10; 10]%Q
           (PyBool false) (PyStr "x")); [reflexivity | reflexivity |].
  simpl. lia.
Defined.

(** X13: with valid close values and a valid max_items_per_transaction, a
    max_investment that is an int or a float and is zero or negative, False
    and minus infinity included, raises WrongValueForInputParameter. *)
Theorem max_investment_wrong_value {Frame : Type}
    (validateInputData : Frame -> option (list Z * list Q))
    (input_data_index : list Z) (close_values : Frame) (closes : list Q)
    (max_items_per_transaction max_investment : pyval) :
  validateInputData close_values = Some (input_data_index, closes) ->
  is_int max_items_per_transaction = true ->
  0 < int_value max_items_per_transaction ->
  is_int_or_float max_investment = true ->
  le_zero (numeric_value max_investment) = true ->
  __init__ validateInputData input_data_index close_values
    max_items_per_transaction max_investment
  = inl WrongValueForInputParameter.
Proof.
  intros Hvalid Hint Hpos Hf Hle.
  rewrite (init_on_valid_close_values _ _ _ closes _ _ Hvalid).
  rewrite Hint. simpl. rewrite (proj2 (Z.leb_gt _ _) Hpos).
  now rewrite Hf, Hle.
Qed.

Lemma max_investment_wrong_value_witness :
  __init__ Some [0; 1] ([0; 1], [10; 10]%Q) (PyInt 3) (PyFloat (Fin 0))
  = inl WrongValueForInputParameter.
Proof.
  apply (max_investment_wrong_value Some [0; 1] ([0; 1], [10; 10]%Q)
           [10; 10]%Q (PyInt 3) (PyFloat (Fin 0)));
    [reflexivity | reflexivity | simpl; lia | reflexivity | reflexivity].
Defined.

(** X14: with valid close values and a valid max_items_per_transaction, a
    max_investment that is neither an int, a float nor None (a text) raises
    WrongTypeForInputParameter. *)
Theorem max_investment_wrong_type {Frame : Type}
    (validateInputData : Frame -> option (list Z * list Q))
    (input_data_index : list Z) (close_values : Frame) (closes : list Q)
    (max_items_per_transaction max_investment : pyval) :
  validateInputData close_values = Some (input_data_index, closes) ->
  is_int max_items_per_transaction = true ->
  0 < int_value max_items_per_transaction ->
  is_int_or_float max_investment = false ->
  max_investment <> PyNone ->
  __init__ validateInputData input_data_index close_values
    max_items_per_transaction max_investment
  = inl WrongTypeForInputParameter.
Proof.
  intros Hvalid Hint Hpos Hf Hnone.
  rewrite (init_on_valid_close_values _ _ _ closes _ _ Hvalid).
  rewrite Hint. simpl. rewrite (proj2 (Z.leb_gt _ _) Hpos).
  rewrite Hf. now destruct max_investment.
Qed.

Lemma max_investment_wrong_type_witness :
  __init__ Some [0; 1] ([0; 1], [10; 10]%Q) (PyInt 3) (PyStr "50")
  = inl WrongTypeForInputParameter.
Proof.
  apply (max_investment_wrong_type Some [0; 1] ([0; 1], [10; 10]%Q)
           [10; 10]%Q (PyInt 3) (PyStr "50"));
    [reflexivity | reflexivity | simpl; lia | reflexivity | discriminate].
Defined.

(** X15: the constructor builds an engine if and only if the close values
    are accepted with the index of the input data, max_items_per_transaction
    is a positive int, and max_investment is None, or an int or a float that
    is positive (plus infinity included) or is NaN: the test [x <= 0] lets
    NaN through. *)
Theorem init_succeeds_iff {Frame : Type}
    (validateInputData : Frame -> option (list Z * list Q))
    (input_data_index : list Z) (close_values : Frame)
    (max_items_per_transaction max_investment : pyval) :
  (exists s,
     __init__ validateInputData input_data_index close_values
       max_items_per_transaction max_investment = inr s)
  <->
  (exists closes,
     validateInputData close_values = Some (input_data_index, closes)) /\
  is_int max_items_per_transaction = true /\
  0 < int_value max_items_per_transaction /\
  (max_investment = PyNone \/
   (is_int_or_float max_investment = true /\
    (numeric_value max_investment = NaN \/
     numeric_value max_investment = PInf \/
     exists q, numeric_value max_investment = Fin q /\ (0 < q)%Q))).
Proof.
  split.
  - intros [s Hs].
    destruct (validateInputData close_values) as [[index closes]|] eqn:Hv.
    2:{ rewrite init_on_invalid_close_values in Hs; [discriminate |].
        intros closes. congruence. }
    destruct (decide (index = input_data_index)) as [-> | Hne].
    2:{ rewrite init_on_invalid_close_values in Hs; [discriminate |].
        intros closes'. congruence. }
    rewrite (init_on_valid_close_values _ _ _ closes _ _ Hv) in Hs.
    split; [now exists closes |].
    destruct (is_int max_items_per_transaction); [| discriminate].
    split; [reflexivity |]. simpl in Hs.
    destruct (int_value max_items_per_transaction <=? 0)%Z eqn:Hi;
      [discriminate |].
    split; [now apply Z.leb_gt |].
    destruct (is_int_or_float max_investment) eqn:Hf.
    + right. split; [reflexivity |].
      destruct (le_zero (numeric_value max_investment)) eqn:Hm;
        [discriminate | now apply le_zero_false_iff].
    + left. now destruct max_investment.
  - intros ([closes Hv] & Hint & Hpos & Hinv).
    rewrite (init_on_valid_close_values _ _ _ closes _ _ Hv).
    rewrite Hint. simpl. rewrite (proj2 (Z.leb_gt _ _) Hpos).
    destruct Hinv as [-> | [Hf Hm]]; [now eexists |].
    rewrite Hf. apply le_zero_false_iff in Hm. rewrite Hm. now eexists.
Qed.

(** X16: an engine the constructor has built has a positive
    max_items_per_transaction, a max_investment that, when it has one, is
    positive (plus infinity included) or NaN, the index and the validated
    close prices it was given, the statistics at zero, and in each table one
    unwritten row per day of the index. *)
Theorem constructed_engine {Frame : Type}
    (validateInputData : Frame -> option (list Z * list Q))
    (input_data_index : list Z) (close_values : Frame)
    (max_items_per_transaction max_investment : pyval)
    (s : TradingSimulation) :
  __init__ validateInputData input_data_index close_values
    max_items_per_transaction max_investment = inr s ->
  0 < _max_items_per_transaction s /\
  (forall cap, _max_investment s = Some cap ->
     cap = NaN \/ cap = PInf \/ exists q, cap = Fin q /\ (0 < q)%Q) /\
  _input_data_index s = input_data_index /\
  validateInputData close_values = Some (input_data_index, _close_values s) /\
  _portfolio s = replicate (length input_data_index) None /\
  _simulation_data s = replicate (length input_data_index) None /\
  _statistics s = initial_statistics.
Proof.
  intros Hs.
  destruct (validateInputData close_values) as [[index closes]|] eqn:Hv.
  2:{ rewrite init_on_invalid_close_values in Hs; [discriminate |].
      intros closes. congruence. }
  destruct (decide (index = input_data_index)) as [-> | Hne].
  2:{ rewrite init_on_invalid_close_values in Hs; [discriminate |].
      intros closes'. congruence. }
  rewrite (init_on_valid_close_values _ _ _ closes _ _ Hv) in Hs.
  destruct (is_int max_items_per_transaction) eqn:Hint; [| discriminate].
  simpl in Hs.
  destruct (int_value max_items_per_transaction <=? 0)%Z eqn:Hi;
    [discriminate |].
  apply Z.leb_gt in Hi.
  destruct (is_int_or_float max_investment) eqn:Hf.
  - destruct (le_zero (numeric_value max_investment)) eqn:Hm;
      [discriminate |].
    apply le_zero_false_iff in Hm. injection Hs as <-. simpl.
    repeat split; try assumption. now intros cap [= <-].
  - destruct max_investment; try discriminate.
    injection Hs as <-. simpl. repeat split; try assumption. discriminate.
Qed.

Lemma constructed_engine_witness :
  0 < _max_items_per_transaction (new_engine [0; 1] [10; 10]%Q 1 (Some NaN)) /\
  (forall cap,
     _max_investment (new_engine [0; 1] [10; 10]%Q 1 (Some NaN)) = Some cap ->
     cap = NaN \/ cap = PInf \/ exists q, cap = Fin q /\ (0 < q)%Q) /\
  _input_data_index (new_engine [0; 1] [10; 10]%Q 1 (Some NaN)) = [0; 1] /\
  Some ([0; 1], [10; 10]%Q)
  = Some ([0; 1], _close_values (new_engine [0; 1] [10; 10]%Q 1 (Some NaN))) /\
  _portfolio (new_engine [0; 1] [10; 10]%Q 1 (Some NaN))
    = replicate (length [0; 1]) None /\
  _simulation_data (new_engine [0; 1] [10; 10]%Q 1 (Some NaN))
    = replicate (length [0; 1]) None /\
  _statistics (new_engine [0; 1] [10; 10]%Q 1 (Some NaN))
    = initial_statistics.
Proof.
  apply (constructed_engine Some [0; 1] ([0; 1], [10; 10]%Q)
           (PyInt 1) (PyFloat NaN)).
  reflexivity.
Defined.
